(** * notlogin: the placeholder login program of Miniserver

    A verification development for [notlogin.c].  The program prints a
    notice and then waits for signals forever.  Its [main] is embedded as an
    interaction tree over the library calls it makes; executions are the
    finite prefixes obtained by running that tree against an environment
    that answers (or never answers) each call. *)

From Stdlib Require Import ZArith List String Ascii Bool Lia.
From ITree Require Import ITree ITreeFacts.
From Paco Require Import paco.
Import ITreeNotations.
Import ListNotations.
Local Open Scope Z_scope.
Local Open Scope string_scope.
Local Open Scope itree_scope.

(** ** Signal sets *)

Module Sigset.

(** A [sigset_t] as a bit mask: bit [n] is set when signal number [n]
    belongs to the set. *)
Definition sigset_t : Type := N.

Definition empty : sigset_t := 0%N.

Definition sigismember (set : sigset_t) (signo : N) : bool :=
  N.testbit set signo.

(** [sigemptyset(&set)]: whatever the object held before, it now excludes
    every signal.  The call cannot fail for a valid pointer. *)
Definition sigemptyset (set : sigset_t) : sigset_t := empty.

Definition is_empty (set : sigset_t) : bool := N.eqb set empty.

End Sigset.

Import Sigset.

(** ** The calls a process can make *)

(** The library and system interface: the two calls of [notlogin.c], and
    the calls its specification says it never makes (opening a file, a
    network operation, a heap allocation, a read through a pointer).  Every
    call answers with a C [int]. *)
Inductive libcE : Type -> Type :=
| Printf (format : string) : libcE Z
| Sigsuspend (sigmask : sigset_t) : libcE Z
| Open (path : string) : libcE Z
| Socket (domain : Z) : libcE Z
| Malloc (size : Z) : libcE Z
| Load (address : Z) : libcE Z.

(** A call as it is seen from outside, without the type of its answer. *)
Inductive call : Type :=
| CPrintf (format : string)
| CSigsuspend (sigmask : sigset_t)
| COpen (path : string)
| CSocket (domain : Z)
| CMalloc (size : Z)
| CLoad (address : Z).

Definition call_of {X : Type} (e : libcE X) : call :=
  match e with
  | Printf f => CPrintf f
  | Sigsuspend m => CSigsuspend m
  | Open p => COpen p
  | Socket d => CSocket d
  | Malloc n => CMalloc n
  | Load a => CLoad a
  end.

(** Every answer is an [int]; this carries a [Z] to the answer type. *)
Definition answer_of {X : Type} (e : libcE X) (z : Z) : X :=
  match e in libcE T return T with
  | Printf _ | Sigsuspend _ | Open _ | Socket _ | Malloc _ | Load _ => z
  end.

(** ** The program *)

Definition newline : string := String (ascii_of_nat 10) EmptyString.

(** The two adjacent string literals of the [printf] call; the compiler
    concatenates them. *)
Definition notice_line1 : string :=
  "Miniserver does not provide a login prompt. It has no shell anyway."
  ++ newline.

Definition notice_line2 : string :=
  "If you need to execute a command, do so via ssh." ++ newline.

Definition notice : string := notice_line1 ++ notice_line2.

(** [while (cond) body] over the local state [S]: the condition is a C
    integer, tested before every iteration; a zero leaves the loop. *)
Definition while {E : Type -> Type} {S : Type}
    (cond : S -> Z) (body : S -> itree E S) : S -> itree E S :=
  ITree.iter (fun s =>
    if Z.eqb (cond s) 0 then Ret (inr s)
    else s' <- body s ;; Ret (inl s')).

(** The body of the loop: [sigsuspend(&sigmask);].  The set is passed by
    pointer to const, and the answer is dropped. *)
Definition loop_body (sigmask : sigset_t) : itree libcE sigset_t :=
  _ <- ITree.trigger (Sigsuspend sigmask) ;;
  Ret sigmask.

(** [main].  [argc] and [argv] are the C arguments, [argv] as the address
    it holds (0 for a null pointer).  [uninit] is the indeterminate content
    of the local [sigmask] before [sigemptyset] initialises it.  Falling off
    the end of [main] would return 0. *)
Definition main (argc : Z) (argv : Z) (uninit : sigset_t) : itree libcE Z :=
  _ <- ITree.trigger (Printf notice) ;;
  let sigmask := uninit in
  let sigmask := sigemptyset sigmask in
  _ <- while (fun _ => 1) loop_body sigmask ;;
  Ret 0.

(** The part of [main] after the [printf] call, on its own: the local, its
    initialisation, the loop and the implicit return. *)
Definition suspend_forever (uninit : sigset_t) : itree libcE Z :=
  let sigmask := uninit in
  let sigmask := sigemptyset sigmask in
  _ <- while (fun _ => 1) loop_body sigmask ;;
  Ret 0.

(** ** Executions *)

(** How a finite run stands when it is cut off. *)
Inductive outcome (R : Type) : Type :=
| Returned (r : R)   (* the code ran to its end and gave [r] *)
| Blocked            (* inside a call that has not returned *)
| Running.           (* between calls; more steps remain *)

Arguments Returned {R} r.
Arguments Blocked {R}.
Arguments Running {R}.

(** The environment: the answer to the [n]th call of the run, or [None]
    when that call never returns (the process stays suspended, or is ended
    by a signal while inside the call). *)
Definition env : Type := nat -> option Z.

(** Run a tree for at most [fuel] steps, [n] calls having been made
    already.  Gives the calls made, in order, and how the run stands. *)
Fixpoint run {R : Type} (fuel : nat) (rho : env) (n : nat) (t : itree libcE R)
    : list call * outcome R :=
  match fuel with
  | O => ([], Running)
  | S fuel' =>
      match observe t with
      | RetF r => ([], Returned r)
      | TauF t' => run fuel' rho n t'
      | VisF e k =>
          match rho n with
          | None => ([call_of e], Blocked)
          | Some z =>
              let (tr, o) := run fuel' rho (S n) (k (answer_of e z)) in
              (call_of e :: tr, o)
          end
      end
  end.

Definition trace {R : Type} (fuel : nat) (rho : env) (t : itree libcE R)
    : list call :=
  fst (run fuel rho 0%nat t).

Definition result {R : Type} (fuel : nat) (rho : env) (t : itree libcE R)
    : outcome R :=
  snd (run fuel rho 0%nat t).

(** An environment in which every call returns, the [n]th with [ans n]. *)
Definition returning (ans : nat -> Z) : env := fun n => Some (ans n).

(** An environment in which the first call returns [z] and the later ones
    do as [rho] says. *)
Definition answering (z : Z) (rho : env) : env :=
  fun n => match n with O => Some z | S _ => rho n end.

(** An environment in which every call returns [z]. *)
Definition always (z : Z) : env := returning (fun _ => z).

(** The environment [rho] with the answer of every returning call replaced:
    the [n]th call returns exactly when it does in [rho], with [ans n]. *)
Definition with_answers (ans : nat -> Z) (rho : env) : env :=
  fun n => match rho n with Some _ => Some (ans n) | None => None end.

(** An environment in which the first [k] calls return [z] and no later
    call returns: the process is ended, or left suspended, inside call
    [k]. *)
Definition returns_first (k : nat) (z : Z) : env :=
  fun n => if Nat.ltb n k then Some z else None.

(** [exited o]: the code has run to its end. *)
Definition exited {R : Type} (o : outcome R) : bool :=
  match o with
  | Returned _ => true
  | Blocked | Running => false
  end.

(** ** Kinds of calls *)

Definition is_stdout_write (c : call) : bool :=
  match c with CPrintf _ => true | _ => false end.

Definition is_suspension (c : call) : bool :=
  match c with CSigsuspend _ => true | _ => false end.

Definition is_file_open (c : call) : bool :=
  match c with COpen _ => true | _ => false end.

Definition is_network (c : call) : bool :=
  match c with CSocket _ => true | _ => false end.

Definition is_heap_allocation (c : call) : bool :=
  match c with CMalloc _ => true | _ => false end.

Definition is_memory_read (c : call) : bool :=
  match c with CLoad _ => true | _ => false end.

(** A call that is no suspension, or a suspension on the empty set. *)
Definition suspends_on_empty (c : call) : bool :=
  match c with CSigsuspend m => is_empty m | _ => true end.

(** ** Text *)

(** What [printf] writes for a format when it is called with no further
    argument: ordinary characters are copied, [%%] writes one [%], and any
    other conversion has no argument to take (no defined output). *)
Fixpoint printf_output (format : string) : option string :=
  match format with
  | EmptyString => Some EmptyString
  | String "%" (String "%" rest) => option_map (String "%") (printf_output rest)
  | String "%" _ => None
  | String c rest => option_map (String c) (printf_output rest)
  end.

(** The pieces of a text between its newlines: a text of [k] lines, each
    ended by a newline, gives the [k] lines and then an empty piece. *)
Fixpoint split_lines (s : string) : list string :=
  match s with
  | EmptyString => [EmptyString]
  | String c rest =>
      match split_lines rest with
      | [] => []
      | l :: ls =>
          if Ascii.eqb c (ascii_of_nat 10) then EmptyString :: l :: ls
          else String c l :: ls
      end
  end.

(** [contains needle s]: [needle] occurs in [s]. *)
Definition contains (needle s : string) : bool :=
  match index 0 needle s with Some _ => true | None => false end.

(** The text a run has written to standard output: what each [printf] call
    of the trace writes for its format, in order; [None] when some format
    has no defined output. *)
Fixpoint stdout_text (tr : list call) : option string :=
  match tr with
  | [] => Some EmptyString
  | CPrintf format :: rest =>
      match printf_output format, stdout_text rest with
      | Some text, Some more => Some (text ++ more)
      | _, _ => None
      end
  | _ :: rest => stdout_text rest
  end.

(** * Facts about runs *)

(** Induction in steps of two: one iteration of the loop takes two steps
    of a run, the call and the jump back. *)
Lemma nat_pair_ind (P : nat -> Prop) :
  P O -> P 1%nat -> (forall n, P n -> P (S (S n))) -> forall n, P n.
Proof.
  intros H0 H1 Hstep n.
  assert (both : P n /\ P (S n)).
  { induction n as [|n [IHn IHSn]]; split; auto. }
  exact (proj1 both).
Qed.

Lemma forallb_repeat {A : Type} (p : A -> bool) (x : A) (k : nat) :
  p x = true -> forallb p (repeat x k) = true.
Proof.
  intros Hx. induction k as [|k IH]; simpl; [reflexivity|].
  now rewrite Hx, IH.
Qed.

Lemma filter_repeat_none {A : Type} (p : A -> bool) (x : A) (k : nat) :
  p x = false -> filter p (repeat x k) = [].
Proof.
  intros Hx. induction k as [|k IH]; simpl; [reflexivity|].
  now rewrite Hx.
Qed.

Lemma nth_error_repeat_inv {A : Type} (x y : A) (k i : nat) :
  nth_error (repeat x k) i = Some y -> y = x.
Proof.
  intros H. apply nth_error_In in H. now apply repeat_spec in H.
Qed.

Lemma stdout_text_printf (format : string) (tr : list call) :
  stdout_text (CPrintf format :: tr)
  = match printf_output format, stdout_text tr with
    | Some text, Some more => Some (text ++ more)
    | _, _ => None
    end.
Proof. reflexivity. Qed.

(** Suspensions write nothing. *)
Lemma stdout_text_suspensions (m : sigset_t) (k : nat) :
  stdout_text (repeat (CSigsuspend m) k) = Some EmptyString.
Proof.
  induction k as [|k IH]; [reflexivity | exact IH].
Qed.

Section RunFacts.

Variable rho : env.

(** A run looks at the environment only from the current call on. *)
Lemma run_ext {R : Type} (rho' : env) (fuel : nat) :
  forall (n : nat) (t : itree libcE R),
    (forall i, (n <= i)%nat -> rho i = rho' i) ->
    run fuel rho n t = run fuel rho' n t.
Proof.
  induction fuel as [|fuel IH]; intros n t Hagree; [reflexivity|].
  simpl. destruct (observe t) as [r | t' | X e k].
  - reflexivity.
  - now apply IH.
  - rewrite <- (Hagree n (Nat.le_refl n)).
    destruct (rho n) as [z|]; [|reflexivity].
    rewrite (IH (S n) (k (answer_of e z))); [reflexivity|].
    intros i Hi. apply Hagree. lia.
Qed.

Variable uninit : sigset_t.

(** The first step of the loop is the call. *)
Lemma run_suspend_1 (n : nat) :
  run 1 rho n (suspend_forever uninit) =
  ([CSigsuspend empty],
   match rho n with Some _ => Running | None => Blocked end).
Proof. simpl. destruct (rho n); reflexivity. Qed.

(** Two steps make one iteration and lead back to the loop. *)
Lemma run_suspend_SS (fuel n : nat) :
  run (S (S fuel)) rho n (suspend_forever uninit) =
  match rho n with
  | None => ([CSigsuspend empty], Blocked)
  | Some _ =>
      let (tr, o) := run fuel rho (S n) (suspend_forever uninit) in
      (CSigsuspend empty :: tr, o)
  end.
Proof. simpl. destruct (rho n); reflexivity. Qed.

(** The first step of [main] is the [printf] call; whatever it answers,
    what follows is the suspension loop. *)
Lemma run_main_S (argc argv : Z) (fuel : nat) :
  run (S fuel) rho 0 (main argc argv uninit) =
  match rho 0%nat with
  | None => ([CPrintf notice], Blocked)
  | Some _ =>
      let (tr, o) := run fuel rho 1 (suspend_forever uninit) in
      (CPrintf notice :: tr, o)
  end.
Proof.
  simpl. destruct (rho 0%nat); [|reflexivity].
  destruct fuel; reflexivity.
Qed.

(** Every run of the loop is a row of suspensions on the empty set, and
    none has left the loop. *)
Lemma suspend_shape (fuel : nat) :
  forall n, exists k o,
    run fuel rho n (suspend_forever uninit)
    = (repeat (CSigsuspend empty) k, o) /\ exited o = false.
Proof.
  induction fuel as [| |fuel IH] using nat_pair_ind; intros n.
  - exists 0%nat, Running. split; reflexivity.
  - rewrite run_suspend_1. exists 1%nat.
    destruct (rho n); eexists; split; reflexivity.
  - rewrite run_suspend_SS. destruct (rho n) as [z|].
    + destruct (IH (S n)) as (k & o & Hrun & Halive).
      rewrite Hrun. exists (S k), o. split; [reflexivity | exact Halive].
    + exists 1%nat, Blocked. split; reflexivity.
Qed.

(** Every run of [main] that has started is the notice and then a row of
    suspensions on the empty set, and [main] has not returned. *)
Lemma main_shape (argc argv : Z) (fuel : nat) :
  exists k o,
    run (S fuel) rho 0 (main argc argv uninit)
    = (CPrintf notice :: repeat (CSigsuspend empty) k, o)
    /\ exited o = false.
Proof.
  rewrite run_main_S. destruct (rho 0%nat) as [z|].
  - destruct (suspend_shape fuel 1) as (k & o & Hrun & Halive).
    rewrite Hrun. exists k, o. split; [reflexivity | exact Halive].
  - exists 0%nat, Blocked. split; reflexivity.
Qed.

(** While the calls return, [k] iterations take [2 * k] steps. *)
Lemma run_suspend_even (k : nat) :
  forall n,
    (forall i, (n <= i < n + k)%nat -> rho i <> None) ->
    run (2 * k) rho n (suspend_forever uninit)
    = (repeat (CSigsuspend empty) k, Running).
Proof.
  induction k as [|k IH]; intros n Hret; [reflexivity|].
  replace (2 * S k)%nat with (S (S (2 * k))) by lia.
  rewrite run_suspend_SS.
  destruct (rho n) as [z|] eqn:Hn.
  - rewrite IH; [reflexivity|]. intros i Hi. apply Hret. lia.
  - exfalso. apply (Hret n); [lia | exact Hn].
Qed.

(** One step more and the next call is made. *)
Lemma run_suspend_odd (k : nat) :
  forall n,
    (forall i, (n <= i < n + k)%nat -> rho i <> None) ->
    run (S (2 * k)) rho n (suspend_forever uninit)
    = (repeat (CSigsuspend empty) (S k),
       match rho (n + k)%nat with Some _ => Running | None => Blocked end).
Proof.
  induction k as [|k IH]; intros n Hret.
  - rewrite Nat.add_0_r. apply run_suspend_1.
  - replace (S (2 * S k))%nat with (S (S (S (2 * k)))) by lia.
    rewrite run_suspend_SS.
    destruct (rho n) as [z|] eqn:Hn.
    + rewrite IH.
      * replace (S n + k)%nat with (n + S k)%nat by lia. reflexivity.
      * intros i Hi. apply Hret. lia.
    + exfalso. apply (Hret n); [lia | exact Hn].
Qed.

End RunFacts.

(** * The notice and its place in a run *)

(** C1: for every invocation of [main], whatever the arguments (and
    whatever the environment answers), the first action of the program is
    the write of the fixed notice to standard output: the tree of [main]
    starts with the [printf] of [notice], and every run that has started
    has that call at its head.  The string is the same constant for every
    invocation. *)
Theorem notice_written_first :
  forall (argc argv : Z) (uninit : sigset_t),
    (exists k, observe (main argc argv uninit) = VisF (Printf notice) k)
    /\ forall (fuel : nat) (rho : env),
         hd_error (trace (S fuel) rho (main argc argv uninit))
         = Some (CPrintf notice).
Proof.
  intros argc argv uninit. split.
  - simpl. eexists. reflexivity.
  - intros fuel rho. unfold trace.
    destruct (main_shape rho uninit argc argv fuel) as (k & o & Hrun & _).
    now rewrite Hrun.
Qed.

(** C2: two invocations of [main] that differ only in [argc] and [argv]
    behave alike: in the same environment they make the same calls in the
    same order and stand alike after any number of steps (the same output,
    the same suspensions), and neither has failed or returned. *)
Theorem arguments_ignored :
  forall (argc argv argc' argv' : Z) (uninit : sigset_t)
         (fuel : nat) (rho : env),
    run fuel rho 0 (main argc argv uninit)
    = run fuel rho 0 (main argc' argv' uninit)
    /\ exited (result fuel rho (main argc argv uninit)) = false
    /\ exited (result fuel rho (main argc' argv' uninit)) = false.
Proof.
  intros argc argv argc' argv' uninit fuel rho.
  assert (Halive : forall a v, exited (result fuel rho (main a v uninit)) = false).
  { intros a v. unfold result. destruct fuel as [|fuel]; [reflexivity|].
    destruct (main_shape rho uninit a v fuel) as (k & o & Hrun & Ho).
    now rewrite Hrun. }
  split; [reflexivity | split; apply Halive].
Qed.

(** C3: in every execution of [main], a call of [sigsuspend] has the write
    of the notice strictly before it: wherever a suspension stands in a
    run, the notice was written at an earlier position. *)
Theorem notice_before_suspension :
  forall (argc argv : Z) (uninit : sigset_t) (fuel : nat) (rho : env)
         (i : nat) (m : sigset_t),
    nth_error (trace fuel rho (main argc argv uninit)) i
    = Some (CSigsuspend m) ->
    exists j, (j < i)%nat
      /\ nth_error (trace fuel rho (main argc argv uninit)) j
         = Some (CPrintf notice).
Proof.
  intros argc argv uninit fuel rho i m. unfold trace.
  destruct fuel as [|fuel].
  - simpl. destruct i; discriminate.
  - destruct (main_shape rho uninit argc argv fuel) as (k & o & Hrun & _).
    rewrite Hrun. simpl. intros Hi. exists 0%nat.
    destruct i as [|i]; [discriminate Hi|]. split; [lia | reflexivity].
Qed.

Lemma notice_before_suspension_witness :
  nth_error (trace 4 (always (-1)) (main 1 0 5%N)) 2 = Some (CSigsuspend empty)
  /\ exists j, (j < 2)%nat
       /\ nth_error (trace 4 (always (-1)) (main 1 0 5%N)) j
          = Some (CPrintf notice).
Proof.
  split.
  - reflexivity.
  - apply (notice_before_suspension 1 0 5%N 4 (always (-1)) 2 empty).
    reflexivity.
Defined.

(** * The suspension loop *)

(** C4: the suspend-forever operation is a loop whose every iteration is
    one [sigsuspend] call on the emptied set (the call that installs the
    set and suspends in one step), and after each return the next action is
    the same call again: when the [printf] and the first [n] suspensions
    have returned, the run consists of the notice and [n + 1] suspensions,
    all on the set [sigemptyset] left, which has no member. *)
Theorem suspension_reentered_on_empty_set :
  forall (argc argv : Z) (uninit : sigset_t) (rho : env) (n : nat),
    (forall i, (i <= n)%nat -> rho i <> None) ->
    trace (2 * n + 2) rho (main argc argv uninit)
    = CPrintf notice :: repeat (CSigsuspend (sigemptyset uninit)) (S n)
    /\ nth_error (trace (2 * n + 2) rho (main argc argv uninit)) (S n)
       = Some (CSigsuspend (sigemptyset uninit))
    /\ forall signo, sigismember (sigemptyset uninit) signo = false.
Proof.
  intros argc argv uninit rho n Hret.
  assert (Htrace : trace (2 * n + 2) rho (main argc argv uninit)
                   = CPrintf notice :: repeat (CSigsuspend empty) (S n)).
  { unfold trace.
    replace (2 * n + 2)%nat with (S (S (2 * n))) by lia.
    rewrite run_main_S.
    destruct (rho 0%nat) as [z|] eqn:H0.
    - rewrite run_suspend_odd; [reflexivity|].
      intros i Hi. apply Hret. lia.
    - exfalso. apply (Hret 0%nat); [lia | exact H0]. }
  split; [exact Htrace | split].
  - rewrite Htrace. change (sigemptyset uninit) with empty.
    change (nth_error (repeat (CSigsuspend empty) (S n)) n
            = Some (CSigsuspend empty)).
    apply nth_error_repeat. lia.
  - intros signo. apply N.bits_0.
Qed.

Lemma suspension_reentered_on_empty_set_witness :
  (forall i, (i <= 2)%nat -> always (-1) i <> None)
  /\ trace (2 * 2 + 2) (always (-1)) (main 3 4096 9%N)
     = CPrintf notice :: repeat (CSigsuspend (sigemptyset 9%N)) 3
  /\ nth_error (trace (2 * 2 + 2) (always (-1)) (main 3 4096 9%N)) 3
     = Some (CSigsuspend (sigemptyset 9%N))
  /\ forall signo, sigismember (sigemptyset 9%N) signo = false.
Proof.
  split.
  - intros i _. discriminate.
  - apply (suspension_reentered_on_empty_set 3 4096 9%N (always (-1)) 2).
    intros i _. discriminate.
Defined.

(** C5: the program has no exit path of its own: no run of [main], in any
    environment and after any number of steps, has returned; and when every
    call returns, the loop is never left: for every number [n] of completed
    iterations the run goes on, between calls, and one step later the
    iteration [n + 1] has begun. *)
Theorem main_never_returns :
  forall (argc argv : Z) (uninit : sigset_t),
    (forall (fuel : nat) (rho : env),
        exited (result fuel rho (main argc argv uninit)) = false)
    /\ forall (ans : nat -> Z) (n : nat),
         run (S (2 * n)) (returning ans) 0 (main argc argv uninit)
         = (CPrintf notice :: repeat (CSigsuspend empty) n, Running)
         /\ run (S (S (2 * n))) (returning ans) 0 (main argc argv uninit)
            = (CPrintf notice :: repeat (CSigsuspend empty) (S n), Running).
Proof.
  intros argc argv uninit. split.
  - intros fuel rho. unfold result. destruct fuel as [|fuel]; [reflexivity|].
    destruct (main_shape rho uninit argc argv fuel) as (k & o & Hrun & Ho).
    now rewrite Hrun.
  - intros ans n. split.
    + rewrite run_main_S. simpl (returning ans 0%nat).
      rewrite run_suspend_even; [reflexivity|].
      intros i _. discriminate.
    + rewrite run_main_S. simpl (returning ans 0%nat).
      rewrite run_suspend_odd; [reflexivity|].
      intros i _. discriminate.
Qed.

(** C6: the result of the write is not inspected: whatever the [printf]
    call answers, a count of characters or a negative value for a failure,
    the program goes on to the suspension loop in the same way; two runs
    that differ only in that answer make the same calls and stand alike. *)
Theorem write_result_not_inspected :
  forall (argc argv : Z) (uninit : sigset_t) (fuel : nat) (rho : env)
         (r1 r2 : Z),
    run fuel (answering r1 rho) 0 (main argc argv uninit)
    = run fuel (answering r2 rho) 0 (main argc argv uninit)
    /\ run (S fuel) (answering r1 rho) 0 (main argc argv uninit)
       = (CPrintf notice
            :: fst (run fuel rho 1 (suspend_forever uninit)),
          snd (run fuel rho 1 (suspend_forever uninit))).
Proof.
  intros argc argv uninit fuel rho r1 r2.
  assert (Hgo : forall r f,
             run (S f) (answering r rho) 0 (main argc argv uninit)
             = (CPrintf notice :: fst (run f rho 1 (suspend_forever uninit)),
                snd (run f rho 1 (suspend_forever uninit)))).
  { intros r f. rewrite run_main_S. simpl (answering r rho 0%nat).
    rewrite (run_ext (answering r rho) rho f 1 (suspend_forever uninit)).
    - now destruct (run f rho 1 (suspend_forever uninit)).
    - intros i Hi. destruct i as [|i]; [lia | reflexivity]. }
  split; [|apply Hgo].
  destruct fuel as [|fuel]; [reflexivity|].
  now rewrite !Hgo.
Qed.

(** * Effects *)

(** C7: over any execution of [main] that has started, exactly one write
    to standard output is made, and nothing else but suspensions: every
    call of the run is that write or a [sigsuspend]; none opens a file, does
    a network operation or allocates on the heap. *)
Theorem one_write_and_no_other_effect :
  forall (argc argv : Z) (uninit : sigset_t) (fuel : nat) (rho : env),
    List.length (filter is_stdout_write
              (trace (S fuel) rho (main argc argv uninit))) = 1%nat
    /\ forallb (fun c => is_stdout_write c || is_suspension c)
         (trace (S fuel) rho (main argc argv uninit)) = true
    /\ forallb (fun c => negb (is_file_open c || is_network c
                               || is_heap_allocation c))
         (trace (S fuel) rho (main argc argv uninit)) = true.
Proof.
  intros argc argv uninit fuel rho. unfold trace.
  destruct (main_shape rho uninit argc argv fuel) as (k & o & Hrun & _).
  rewrite Hrun. cbn [fst filter forallb is_stdout_write].
  repeat split.
  - now rewrite filter_repeat_none.
  - now rewrite forallb_repeat.
  - now rewrite forallb_repeat.
Qed.

(** C8: the text written is exactly the two-line notice of the source.
    In every run of [main] that has started, for every argument and
    environment, the one [printf] call has as its format the line saying
    that there is no login prompt and no shell, a newline, the line pointing
    to ssh, and a newline, and the text the run writes to standard output is
    that same string.  The format holds no conversion, so [printf] writes
    it as it stands; split at its newlines it gives these two lines and
    nothing after the last newline. *)
Theorem notice_text :
  (forall (argc argv : Z) (uninit : sigset_t) (fuel : nat) (rho : env),
      filter is_stdout_write (trace (S fuel) rho (main argc argv uninit))
      = [CPrintf
           ("Miniserver does not provide a login prompt. It has no shell anyway."
            ++ newline
            ++ "If you need to execute a command, do so via ssh."
            ++ newline)]
      /\ stdout_text (trace (S fuel) rho (main argc argv uninit))
         = Some
             ("Miniserver does not provide a login prompt. It has no shell anyway."
              ++ newline
              ++ "If you need to execute a command, do so via ssh."
              ++ newline))
  /\ notice
     = "Miniserver does not provide a login prompt. It has no shell anyway."
       ++ newline
       ++ "If you need to execute a command, do so via ssh."
       ++ newline
  /\ printf_output notice = Some notice
  /\ split_lines notice
     = ["Miniserver does not provide a login prompt. It has no shell anyway.";
        "If you need to execute a command, do so via ssh.";
        ""]
  /\ contains "does not provide a login prompt" notice_line1 = true
  /\ contains "no shell" notice_line1 = true
  /\ contains "do so via ssh" notice_line2 = true.
Proof.
  split.
  - intros argc argv uninit fuel rho. unfold trace.
    destruct (main_shape rho uninit argc argv fuel) as (k & o & Hrun & _).
    rewrite Hrun. cbn [fst]. split.
    + cbn [filter is_stdout_write].
      rewrite filter_repeat_none by reflexivity.
      vm_compute. reflexivity.
    + rewrite stdout_text_printf, stdout_text_suspensions.
      vm_compute. reflexivity.
  - repeat split; vm_compute; reflexivity.
Qed.

(** C9: the set passed to [sigsuspend] is the empty set on every
    iteration: [sigemptyset] empties it before the loop, whatever it held;
    an iteration passes the variable to the call and leaves it as it was;
    and every suspension of every run is on the empty set. *)
Theorem sigmask_stays_empty :
  (forall uninit, is_empty (sigemptyset uninit) = true)
  /\ (forall (sigmask : sigset_t) (ans : nat -> Z) (n : nat),
         run 2 (returning ans) n (loop_body sigmask)
         = ([CSigsuspend sigmask], Returned sigmask))
  /\ forall (argc argv : Z) (uninit : sigset_t) (fuel : nat) (rho : env),
       forallb suspends_on_empty (trace fuel rho (main argc argv uninit))
       = true.
Proof.
  split; [reflexivity | split; [reflexivity|]].
  intros argc argv uninit fuel rho. unfold trace.
  destruct fuel as [|fuel]; [reflexivity|].
  destruct (main_shape rho uninit argc argv fuel) as (k & o & Hrun & _).
  rewrite Hrun. cbn [fst forallb suspends_on_empty andb].
  now apply forallb_repeat.
Qed.

(** C10: [main] reads neither [argc] nor anything through [argv]: for
    every [argc], 0 included, and every [argv], the null pointer included,
    no call of any run is a read of memory, and the run is the one made
    with [argc = 0] and a null [argv]. *)
Theorem argv_never_accessed :
  forall (argc argv : Z) (uninit : sigset_t) (fuel : nat) (rho : env),
    forallb (fun c => negb (is_memory_read c))
      (trace fuel rho (main argc argv uninit)) = true
    /\ run fuel rho 0 (main argc argv uninit)
       = run fuel rho 0 (main 0 0 uninit).
Proof.
  intros argc argv uninit fuel rho. split; [|reflexivity].
  unfold trace. destruct fuel as [|fuel]; [reflexivity|].
  destruct (main_shape rho uninit argc argv fuel) as (k & o & Hrun & _).
  rewrite Hrun. cbn [fst forallb is_memory_read negb andb].
  now apply forallb_repeat.
Qed.

(** * The whole behaviour, and calls that do not return *)

(** The loop of [main] with the return behind it is, step for step, the
    tree that calls [sigsuspend] on the empty set for ever. *)
Lemma suspend_forever_bisim (uninit : sigset_t) :
  eq_itree eq (suspend_forever uninit)
    (ITree.forever (ITree.trigger (Sigsuspend empty)) : itree libcE Z).
Proof.
  pcofix again. pstep. red. cbn.
  constructor. intros z. left. pstep. red. cbn.
  constructor. right. apply again.
Qed.

Section BlockedRuns.

Variable rho : env.
Variable uninit : sigset_t.

(** The answers of the suspensions play no part in a run of the loop. *)
Lemma run_suspend_with_answers (ans : nat -> Z) (fuel : nat) :
  forall n,
    run fuel (with_answers ans rho) n (suspend_forever uninit)
    = run fuel rho n (suspend_forever uninit).
Proof.
  induction fuel as [| |fuel IH] using nat_pair_ind; intros n.
  - reflexivity.
  - rewrite !run_suspend_1. unfold with_answers. now destruct (rho n).
  - rewrite !run_suspend_SS. unfold with_answers at 1.
    destruct (rho n); [|reflexivity]. now rewrite IH.
Qed.

(** When the suspensions [n], ..., [n + k - 1] return and the next one does
    not, the loop stays inside that call. *)
Lemma run_suspend_blocked (k : nat) :
  forall n fuel,
    (forall i, (n <= i < n + k)%nat -> rho i <> None) ->
    rho (n + k)%nat = None ->
    (2 * k + 1 <= fuel)%nat ->
    run fuel rho n (suspend_forever uninit)
    = (repeat (CSigsuspend empty) (S k), Blocked).
Proof.
  induction k as [|k IH]; intros n fuel Hret Hstop Hfuel.
  - rewrite Nat.add_0_r in Hstop.
    destruct fuel as [|[|fuel]]; [lia | |].
    + rewrite run_suspend_1, Hstop. reflexivity.
    + rewrite run_suspend_SS, Hstop. reflexivity.
  - destruct fuel as [|[|fuel]]; [lia | lia |].
    rewrite run_suspend_SS.
    destruct (rho n) as [z|] eqn:Hn.
    + rewrite (IH (S n) fuel); [reflexivity | | | lia].
      * intros i Hi. apply Hret. lia.
      * replace (S n + k)%nat with (n + S k)%nat by lia. exact Hstop.
    + exfalso. apply (Hret n); [lia | exact Hn].
Qed.

End BlockedRuns.

(** X1: [main] is strongly bisimilar to the program that prints the notice
    and then calls [sigsuspend] on the empty set for ever, whatever the
    arguments and whatever the local held before it was emptied: the
    implicit return of [main] is never reached. *)
Theorem main_is_notice_then_suspend_forever :
  forall (argc argv : Z) (uninit : sigset_t),
    eq_itree eq (main argc argv uninit)
      (ITree.bind (ITree.trigger (Printf notice))
         (fun _ => ITree.forever (ITree.trigger (Sigsuspend empty)))).
Proof.
  intros argc argv uninit.
  change (main argc argv uninit)
    with (ITree.bind (ITree.trigger (Printf notice))
            (fun _ : Z => suspend_forever uninit)).
  eapply eqit_bind; [reflexivity|].
  intros z. apply suspend_forever_bisim.
Qed.

(** X2: the value [sigsuspend] returns is not inspected either: replacing
    the answers of all the calls that return by any others, the run of
    [main] makes the same calls and stands alike. *)
Theorem suspension_result_not_inspected :
  forall (argc argv : Z) (uninit : sigset_t) (fuel : nat) (rho : env)
         (ans : nat -> Z),
    run fuel (with_answers ans rho) 0 (main argc argv uninit)
    = run fuel rho 0 (main argc argv uninit).
Proof.
  intros argc argv uninit fuel rho ans.
  destruct fuel as [|fuel]; [reflexivity|].
  rewrite !run_main_S. unfold with_answers at 1.
  destruct (rho 0%nat); [|reflexivity].
  now rewrite run_suspend_with_answers.
Qed.

(** X3: a call that does not return ends the activity of the program: when
    the first [k] calls return and the next one never does, every run long
    enough to reach that call consists of the notice and [k] suspensions on
    the empty set, and stands inside the last call; no later call is made
    however long the run. *)
Theorem blocked_in_the_call_that_does_not_return :
  forall (argc argv : Z) (uninit : sigset_t) (rho : env) (k fuel : nat),
    (forall i, (i < k)%nat -> rho i <> None) ->
    rho k = None ->
    (2 * k <= S fuel)%nat ->
    run (S fuel) rho 0 (main argc argv uninit)
    = (CPrintf notice :: repeat (CSigsuspend empty) k, Blocked).
Proof.
  intros argc argv uninit rho k fuel Hret Hstop Hfuel.
  rewrite run_main_S. destruct k as [|k].
  - now rewrite Hstop.
  - destruct (rho 0%nat) as [z|] eqn:H0.
    + rewrite (run_suspend_blocked rho uninit k 1 fuel);
        [reflexivity | | exact Hstop | lia].
      intros i Hi. apply Hret. lia.
    + exfalso. apply (Hret 0%nat); [lia | exact H0].
Qed.

Lemma blocked_in_the_call_that_does_not_return_witness :
  (forall i, (i < 2)%nat -> returns_first 2 (-1) i <> None)
  /\ returns_first 2 (-1) 2%nat = None
  /\ (2 * 2 <= S 9)%nat
  /\ run (S 9) (returns_first 2 (-1)) 0 (main 2 4096 7%N)
     = (CPrintf notice :: repeat (CSigsuspend empty) 2, Blocked).
Proof.
  assert (Hret : forall i, (i < 2)%nat -> returns_first 2 (-1) i <> None).
  { intros i Hi. destruct i as [|[|i]]; [discriminate | discriminate | lia]. }
  split; [exact Hret | split; [reflexivity | split; [lia|]]].
  apply (blocked_in_the_call_that_does_not_return 2 4096 7%N
           (returns_first 2 (-1)) 2 9);
    [exact Hret | reflexivity | lia].
Defined.
